(** * echosentry: panic-capturing middleware (capture.go)

    A shallow embedding of package [echosentry] and of the parts of its
    collaborators (the Go runtime, [net/http], [echo], [raven-go]) that
    [capture.go] calls, followed by the properties of the interceptor.

    Conventions.
    - Package-level variables ([sentry], [tagsFunc]) and the objects that Go
      shares by reference (the [echo.Context] of the request in flight, the
      collector, standard error) live in one [World]; Go functions with side
      effects are state transformers over it.
    - A Go value that may be [nil] (pointer, map, func, interface) is an
      [option]; [interface{}] is the sum type [iface].
    - One goroutine is modelled: a single request is in flight. *)

From Stdlib Require Import Strings.String Strings.Ascii Strings.Byte ZArith List DecimalString.
From stdpp Require Import base strings gmap list.

Local Open Scope string_scope.
Local Open Scope list_scope.
Local Open Scope Z_scope.

(** ** Go values *)

(** [error] values built by [errors.New]; [Error] is the method [Error()]. *)
Record error : Type := mkError { Error : string }.

Module errors.
Definition New (text : string) : error := mkError text.
End errors.

(** The dynamic values a panic can carry ([interface{}]): [nil], a string,
    an [error] (run-time errors such as an index out of range or a nil
    dereference are [error] values), an integer, or a value of any other
    type, given by the text [fmt.Sprint] prints for it. *)
Inductive iface : Type :=
| Nil
| Str (s : string)
| Err (e : error)
| Int (n : Z)
| Other (printed : string).

#[global] Instance error_eq_dec : EqDecision error.
Proof. solve_decision. Defined.

#[global] Instance iface_eq_dec : EqDecision iface.
Proof. solve_decision. Defined.

Module fmt.
(** [fmt.Sprint] of a single operand: strings print as they are, errors
    through [Error()], integers in decimal, [nil] as ["<nil>"]. *)
Definition Sprint (a : iface) : string :=
  match a with
  | Nil => "<nil>"
  | Str s => s
  | Err e => Error e
  | Int n => NilZero.string_of_int (Z.to_int n)
  | Other printed => printed
  end.
End fmt.

Module runtime.
(** One entry of the goroutine's call stack, as [runtime.Caller] reports
    it, with the source lines that follow the call site on disk. *)
Record Frame : Type := mkFrame {
  Function : string;
  File : string;
  Line : Z;
  Following : list string
}.

(** [*runtime.PanicNilError]: what [panic(nil)] raises. *)
Definition PanicNilError : error :=
  errors.New "panic called with nil argument (obsolete)".

(** [panic(v)]: the value the panicking goroutine carries.  A nil argument
    is replaced by a [*runtime.PanicNilError] (Go 1.21 and later), so the
    carried value is never nil.  The legacy behaviour ([GODEBUG=panicnil=1],
    where [recover()] returns nil for [panic(nil)]) is not modelled. *)
Definition gopanic (v : iface) : iface :=
  match v with
  | Nil => Err PanicNilError
  | _ => v
  end.

(** The frame of [runtime.gopanic], which runs the deferred calls. *)
Definition gopanicFrame : Frame :=
  mkFrame "runtime.gopanic" "runtime/panic.go" 0 [].
End runtime.

(** ** The host framework *)

Module http.
(** Modelled from the spec: [*http.Request], "a request-context abstraction
    exposing request method/URL/headers/body-stream"; the parts of the live
    request the interceptor and the collector library read.  [Body] is the request's body stream: [None] is
    a nil [Body], [Some bs] a stream from which the bytes [bs] can still be
    read. *)
Record Request : Type := mkRequest {
  Method : string;
  Host : string;
  Path : string;
  TLS : bool;
  Header : gmap string (list string);
  Body : option (list byte)
}.
End http.

Module echo.
(** Modelled from the spec: [echo.Context] of one request, with "a
    handler-chain error-registration call": the request it carries and the
    errors registered on it with [c.Error], oldest first. *)
Record Context : Type := mkContext {
  Request : http.Request;
  Errors : list error
}.
End echo.

(** ** The collector client library *)

Module raven.

(** Modelled from the spec: the collector handle ("an opaque handle
    representing an authenticated connection to a remote error-collection
    endpoint"); the library [raven-go] is a collaborator outside this
    repository. *)
Record Client : Type := mkClient { Endpoint : string }.

(** Modelled from the spec: one frame of a captured stack trace, "carrying up
    to a bounded number of trailing context lines". *)
Record StacktraceFrame : Type := mkStacktraceFrame {
  Filename : string;
  Function : string;
  Lineno : Z;
  PostContext : list string
}.

Record Stacktrace : Type := mkStacktrace { Frames : list StacktraceFrame }.

Definition NewStacktraceFrame (context : nat) (f : runtime.Frame)
  : StacktraceFrame :=
  {| Filename := runtime.File f;
     Function := runtime.Function f;
     Lineno := runtime.Line f;
     PostContext := take context (runtime.Following f) |}.

(** Modelled from the spec: [raven.NewStacktrace(skip, context, prefixes)],
    "an ordered sequence of frames, captured at a fixed skip-depth from the
    point of capture".  [callers] is the goroutine's stack as seen from the
    function that calls [NewStacktrace], innermost first (that function
    itself is entry 0); the first [skip] entries are left out, the others are
    stored oldest first, and a trace without frames is nil. *)
Definition NewStacktrace (skip context : nat) (appPackagePrefixes : list string)
    (callers : list runtime.Frame) : option Stacktrace :=
  match reverse (NewStacktraceFrame context <$> drop skip callers) with
  | [] => None
  | frames => Some (mkStacktrace frames)
  end.

(** Modelled from the spec: the exception record, "construct exception
    record from error + stacktrace". *)
Record Exception : Type := mkException {
  Cause : error;
  ExStacktrace : option Stacktrace
}.

Definition NewException (err : error) (stacktrace : option Stacktrace)
  : Exception :=
  {| Cause := err; ExStacktrace := stacktrace |}.

(** Modelled from the spec: the HTTP-context record, "request URL, method,
    headers, ... derived from the live request object". *)
Record Http : Type := mkHttp {
  URL : string;
  HttpMethod : string;
  Headers : gmap string string
}.

(** [&raven.Http{}]: the empty placeholder (every field at its zero value). *)
Definition zeroHttp : Http :=
  {| URL := ""; HttpMethod := ""; Headers := ∅ |}.

(** Modelled from the spec: [raven.NewHttp(req)], "construct HTTP-context
    record from request". *)
Definition NewHttp (req : http.Request) : Http :=
  let proto :=
    if http.TLS req
       || bool_decide (http.Header req !! "X-Forwarded-Proto" = Some ["https"])
    then "https" else "http" in
  {| URL := proto +:+ "://" +:+ http.Host req +:+ http.Path req;
     HttpMethod := http.Method req;
     Headers := <["Host" := http.Host req]>
                  (String.concat "," <$> http.Header req) |}.

(** The interfaces a packet is built from. *)
Inductive Interface : Type :=
| IException (e : Exception)
| IHttp (h : Http).

(** [raven.Extra]: free-form extra data, keyed by name. *)
Abbreviation Extra := (gmap string iface).

(** Modelled from the spec: the report, "construct report with/without extra
    data"; a report built without extra data has no extra section. *)
Record Packet : Type := mkPacket {
  Message : string;
  Interfaces : list Interface;
  PacketExtra : option Extra
}.

Definition NewPacket (message : string) (interfaces : list Interface)
  : Packet :=
  {| Message := message; Interfaces := interfaces; PacketExtra := None |}.

Definition NewPacketWithExtra (message : string) (extra : Extra)
    (interfaces : list Interface) : Packet :=
  {| Message := message; Interfaces := interfaces;
     PacketExtra := Some extra |}.

(** One call of [client.Capture(packet, tags)]: "send one report,
    fire-and-forget".  The receiver may be a nil client. *)
Record Report : Type := mkReport {
  Receiver : option Client;
  Sent : Packet;
  SentTags : option (gmap string string)
}.

End raven.

(** ** Package state *)

(** [Sentry]: the struct holding the raven client and some of its configs.
    [Tags] is a Go map; [None] is the nil map. *)
Record Sentry : Type := mkSentry {
  withContext : bool;
  RavenClient : option raven.Client;
  Tags : option (gmap string string)
}.

(** [TagsFunc]: given a request context, extract some additional tags (a
    pure function of the context; the map it returns may be nil). *)
Definition TagsFunc : Type := echo.Context -> option (gmap string string).

(** The process as seen by the one goroutine that serves the request:
    - [sentry], [tagsFunc]: the package variables;
    - [c]: the [echo.Context] of the request in flight, shared by reference
      between the wrapper, the handler and the tag extractor;
    - [collector]: the calls of [Capture] made so far, oldest first;
    - [stderr]: the stacks printed by [debug.PrintStack], oldest first;
    - [callers]: the call stack below the wrapper, innermost first. *)
Record World : Type := mkWorld {
  sentry : Sentry;
  tagsFunc : option TagsFunc;
  c : echo.Context;
  collector : list raven.Report;
  stderr : list (list runtime.Frame);
  callers : list runtime.Frame
}.

(** *** State transformers *)

Definition St (A : Type) : Type := World -> A * World.

#[global] Instance ret : MRet St := fun A a w => (a, w).

#[global] Instance bind : MBind St :=
  fun A B k m w => let '(a, w') := m w in k a w'.

Definition gets {A : Type} (f : World -> A) : St A := fun w => (f w, w).

Definition modify (f : World -> World) : St unit := fun w => (tt, f w).

Definition exec {A : Type} (m : St A) (w : World) : World := snd (m w).

(** Field updates of the shared objects. *)
Definition set_sentry (s : Sentry) (w : World) : World :=
  {| sentry := s; tagsFunc := tagsFunc w; c := c w;
     collector := collector w; stderr := stderr w; callers := callers w |}.

Definition set_tagsFunc (fn : option TagsFunc) (w : World) : World :=
  {| sentry := sentry w; tagsFunc := fn; c := c w;
     collector := collector w; stderr := stderr w; callers := callers w |}.

Definition set_c (ctx : echo.Context) (w : World) : World :=
  {| sentry := sentry w; tagsFunc := tagsFunc w; c := ctx;
     collector := collector w; stderr := stderr w; callers := callers w |}.

Definition set_collector (l : list raven.Report) (w : World) : World :=
  {| sentry := sentry w; tagsFunc := tagsFunc w; c := c w;
     collector := l; stderr := stderr w; callers := callers w |}.

Definition set_stderr (l : list (list runtime.Frame)) (w : World) : World :=
  {| sentry := sentry w; tagsFunc := tagsFunc w; c := c w;
     collector := collector w; stderr := l; callers := callers w |}.

(** *** Effects of the collaborators *)

(** [c.Request()]. *)
Definition c_Request : St http.Request := gets (fun w => echo.Request (c w)).

(** [c.Error(err)]: registers [err] on the per-request error channel. *)
Definition c_Error (err : error) : St unit :=
  modify (fun w =>
    set_c {| echo.Request := echo.Request (c w);
             echo.Errors := echo.Errors (c w) ++ [err] |} w).

(** [ioutil.ReadAll(c.Request().Body)] on a non-nil body: returns the bytes
    that can still be read and leaves the stream exhausted. *)
Definition ioutil_ReadAll (body : list byte) : St (list byte) :=
  fun w =>
    let req := echo.Request (c w) in
    (body,
     set_c {| echo.Request :=
                {| http.Method := http.Method req; http.Host := http.Host req;
                   http.Path := http.Path req; http.TLS := http.TLS req;
                   http.Header := http.Header req; http.Body := Some [] |};
              echo.Errors := echo.Errors (c w) |} w).

(** [debug.PrintStack()]: prints the current stack on standard error. *)
Definition debug_PrintStack (stack : list runtime.Frame) : St unit :=
  modify (fun w => set_stderr (stderr w ++ [stack]) w).

(** [client.Capture(packet, tags)]: hands one report to the collector. *)
Definition Capture (client : option raven.Client) (packet : raven.Packet)
    (captureTags : option (gmap string string)) : St unit :=
  modify (fun w =>
    set_collector
      (collector w ++ [raven.mkReport client packet captureTags]) w).

(** ** capture.go *)

(** The zero value [&Sentry{}] of the package variable [sentry]. *)
Definition zeroSentry : Sentry :=
  {| withContext := false; RavenClient := None; Tags := None |}.

(** [func init()]: HTTP context enabled by default for convenience. *)
Definition init : St unit :=
  modify (fun w =>
    set_sentry {| withContext := true;
                  RavenClient := RavenClient (sentry w);
                  Tags := Tags (sentry w) |} w).

(** The process once its package variables are initialised and [init] has
    run, about to serve the request of context [ctx] below the call stack
    [stack]. *)
Definition start (ctx : echo.Context) (stack : list runtime.Frame) : World :=
  exec init
    {| sentry := zeroSentry; tagsFunc := None; c := ctx;
       collector := []; stderr := []; callers := stack |}.

(** How a call that may terminate the process ends. *)
Inductive Run : Type :=
| Running (w : World)
| Exited (status : Z) (logged : string).

(** [log.Fatal(err)]: prints [err] and calls [os.Exit(1)]. *)
Definition log_Fatal (err : error) : Run := Exited 1 (Error err).

Section Setup.

(** [raven.New(dsn)], of the collector library: the pair [(client, err)] it
    returns; [err] is non-nil when the address is malformed. *)
Variable raven_New : string -> option raven.Client * option error.

(** [SetDSN] creates a raven client and sets its Sentry server DSN. *)
Definition SetDSN (dsn : string) (w : World) : Run :=
  let '(client, err) := raven_New dsn in
  match err with
  | Some e => log_Fatal e
  | None =>
      Running
        (set_sentry {| withContext := withContext (sentry w);
                       RavenClient := client;
                       Tags := Tags (sentry w) |} w)
  end.

End Setup.

(** [WithContext] sets whether or not the HTTP context is sent with the log. *)
Definition WithContext (yepnope : bool) : St unit :=
  modify (fun w =>
    set_sentry {| withContext := yepnope;
                  RavenClient := RavenClient (sentry w);
                  Tags := Tags (sentry w) |} w).

(** [SetTags] sets any other additional tags to be captured by Sentry. *)
Definition SetTags (fn : option TagsFunc) : St unit :=
  modify (set_tagsFunc fn).

(** How the call of a handler ends: it returns an [error] (possibly nil), or
    it panics with the argument [v] of [panic] (the run-time error, for a
    fault raised by the runtime); [trace] holds the frames pushed above the
    wrapper at that point, innermost first. *)
Inductive Outcome : Type :=
| Returned (err : option error)
| Panicked (v : iface) (trace : list runtime.Frame).

(** [echo.HandlerFunc], applied to the context [c] of the world, and
    [echo.MiddlewareFunc]. *)
Definition HandlerFunc : Type := St Outcome.
Definition MiddlewareFunc : Type := HandlerFunc -> HandlerFunc.

(** [recover()] in a deferred call: the value carried by the panic when the
    goroutine is panicking, nil otherwise. *)
Definition recover (o : Outcome) : iface :=
  match o with
  | Returned _ => Nil
  | Panicked v _ => runtime.gopanic v
  end.

Definition trace_of (o : Outcome) : list runtime.Frame :=
  match o with
  | Returned _ => []
  | Panicked _ trace => trace
  end.

(** The frames of the deferred closure (at [line] of capture.go) and of the
    wrapper, stopped at [return h(c)]. *)
Definition closureFrame (line : Z) : runtime.Frame :=
  runtime.mkFrame "echosentry.Middleware.func1.1.1" "capture.go" line [].

Definition wrapperFrame : runtime.Frame :=
  runtime.mkFrame "echosentry.Middleware.func1.1" "capture.go" 100 [].

(** The goroutine's stack as seen from the deferred closure while it handles
    a panic: the closure, the runtime's panic dispatcher that called it, the
    frames of the fault, the wrapper and its callers. *)
Definition stackAt (line : Z) (trace : list runtime.Frame) (w : World)
  : list runtime.Frame :=
  closureFrame line :: runtime.gopanicFrame :: trace
    ++ wrapperFrame :: callers w.

(** The body of the deferred closure, [rval] being the result of
    [recover()]. *)
Definition recovery (rval : iface) (trace : list runtime.Frame) : St unit :=
  if bool_decide (rval ≠ Nil) then
    stack ← gets (stackAt 60 trace);
    debug_PrintStack stack ;;

    let errorMsg := fmt.Sprint rval in
    let err := errors.New errorMsg in

    stack ← gets (stackAt 65 trace);
    let stacktrace :=
      raven.NewException err (raven.NewStacktrace 2 3 [] stack) in

    let httpContext := raven.zeroHttp in

    s ← gets sentry;
    req ← c_Request;
    let httpContext :=
      if withContext s then raven.NewHttp req else httpContext in

    (* extract tags *)
    fn ← gets tagsFunc;
    match fn with
    | Some f =>
        ctx ← gets c;
        modify (fun w =>
          set_sentry {| withContext := withContext (sentry w);
                        RavenClient := RavenClient (sentry w);
                        Tags := f ctx |} w)
    | None => mret tt
    end ;;

    (* extract body *)
    req ← c_Request;
    bodyBytes ←
      match http.Body req with
      | Some body => ioutil_ReadAll body
      | None => mret []
      end;

    (* construct the raven packet to be sent *)
    let packet :=
      if bool_decide (0 < length bodyBytes)%nat then
        raven.NewPacketWithExtra errorMsg
          {[ "requestBody" := Str (string_of_list_byte bodyBytes) ]}
          [raven.IException stacktrace; raven.IHttp httpContext]
      else
        raven.NewPacket errorMsg
          [raven.IException stacktrace; raven.IHttp httpContext] in

    (* capture it and send *)
    s ← gets sentry;
    Capture (RavenClient s) packet (Tags s) ;;

    (* register the error back to echo.Context *)
    c_Error err
  else mret tt.

(** [Middleware] returns an echo middleware which recovers from panics
    anywhere in the chain and logs to the sentry server specified in DSN.
    The deferred closure runs when [h(c)] has returned or panicked; once it
    has recovered a panic, the wrapper returns the zero value of its result
    type, a nil [error]. *)
Definition Middleware : MiddlewareFunc := fun h =>
  out ← h;
  recovery (recover out) (trace_of out) ;;
  mret (match out with
       | Returned err => Returned err
       | Panicked _ _ => Returned None
       end).

(** ** Observations *)

(** The bytes the interceptor reads from the request body when it runs in
    world [w]: what is left on the stream, nothing when the stream is nil. *)
Definition pendingBody (w : World) : list byte :=
  match http.Body (echo.Request (c w)) with
  | Some body => body
  | None => []
  end.

(** The HTTP contexts and the exception records a report carries. *)
Definition httpOf (p : raven.Packet) : list raven.Http :=
  omap (fun i => match i with raven.IHttp h => Some h | _ => None end)
       (raven.Interfaces p).

Definition exceptionOf (p : raven.Packet) : list raven.Exception :=
  omap (fun i => match i with raven.IException e => Some e | _ => None end)
       (raven.Interfaces p).

(** A handler that panics with [v] at once, from the frames [trace]. *)
Definition panics (v : iface) (trace : list runtime.Frame) : HandlerFunc :=
  fun w => (Panicked v trace, w).

(** A handler that returns [err] at once. *)
Definition returns (err : option error) : HandlerFunc :=
  fun w => (Returned err, w).

(** A handler that leaves alone what it cannot reach from outside the
    package: the [sentry] struct and the collector behind it. *)
Definition bystander (h : HandlerFunc) : Prop :=
  forall w, sentry (exec h w) = sentry w
            /\ collector (exec h w) = collector w.

(** Requests served one after the other by the same goroutine, each with its
    own context and its handler wrapped by [Middleware]. *)
Fixpoint serve (reqs : list (echo.Context * HandlerFunc)) : St unit :=
  match reqs with
  | [] => mret tt
  | (ctx, h) :: reqs' =>
      modify (set_c ctx) ;; Middleware h ;; serve reqs'
  end.

(** A report whose HTTP context agrees with the value [b] of the toggle. *)
Definition follows_toggle (b : bool) (r : raven.Report) : Prop :=
  if b then exists req : http.Request,
              httpOf (raven.Sent r) = [raven.NewHttp req]
  else httpOf (raven.Sent r) = [raven.zeroHttp].

(** ** Sample data *)

(** The bytes of the text [{"x":1}]. *)
Definition body_x1 : list byte := [x7b; x22; x78; x22; x3a; x31; x7d].

Definition GET_request : http.Request :=
  http.mkRequest "GET" "example.org" "/ping" false ∅ None.

Definition POST_request : http.Request :=
  http.mkRequest "POST" "example.org" "/items" true ∅ (Some body_x1).

Definition GET_world : World := start (echo.mkContext GET_request []) [].
Definition POST_world : World := start (echo.mkContext POST_request []) [].

Definition env_prod : TagsFunc := fun _ => Some {[ "env" := "prod" ]}.

Definition sample_dsn : string := "https://key@sentry.example.org/1".

(** A stand-in for [raven.New] that accepts one address only. *)
Definition sample_New (dsn : string)
  : option raven.Client * option error :=
  if bool_decide (dsn = sample_dsn)
  then (Some (raven.mkClient dsn), None)
  else (Some (raven.mkClient ""), Some (errors.New "raven: dsn missing public key and/or password")).

(** The world after [init] and [SetDSN sample_dsn], serving [GET_request]. *)
Definition ready_world : World :=
  set_sentry {| withContext := true;
                RavenClient := Some (raven.mkClient sample_dsn);
                Tags := None |} GET_world.

(** A handler that reads the whole request body, then panics with [v]. *)
Definition reads_body_then_panics (v : iface) : HandlerFunc :=
  req ← c_Request;
  match http.Body req with
  | Some body => ioutil_ReadAll body ;; panics v []
  | None => panics v []
  end.

(** ** Basic facts *)

Lemma gopanic_not_nil (v : iface) : runtime.gopanic v <> Nil.
Proof. by destruct v. Qed.

Lemma recover_panicked (v : iface) (trace : list runtime.Frame) :
  bool_decide (recover (Panicked v trace) <> Nil) = true.
Proof. apply bool_decide_eq_true_2, gopanic_not_nil. Qed.

Lemma recovery_nil (trace : list runtime.Frame) (w : World) :
  recovery Nil trace w = (tt, w).
Proof. reflexivity. Qed.

Lemma NewStacktrace_frames (skip context : nat) (prefixes : list string)
    (stack : list runtime.Frame) :
  drop skip stack <> [] ->
  raven.NewStacktrace skip context prefixes stack
  = Some (raven.mkStacktrace
            (reverse (raven.NewStacktraceFrame context <$> drop skip stack))).
Proof.
  intros Hne. unfold raven.NewStacktrace.
  destruct (reverse _) as [|fr frs] eqn:Hrev; [|done].
  apply (f_equal reverse) in Hrev. rewrite reverse_involutive in Hrev.
  by apply fmap_nil_inv in Hrev.
Qed.

Lemma NewHttp_not_zero (req : http.Request) :
  raven.NewHttp req <> raven.zeroHttp.
Proof.
  intros Heq. apply (f_equal (fun h => raven.Headers h !! "Host")) in Heq.
  cbn in Heq. by rewrite lookup_insert_eq in Heq.
Qed.

(** Runs the deferred closure symbolically on the panic value of [v]. *)
Ltac run_recovery v :=
  unfold exec, recovery;
  rewrite (bool_decide_eq_true_2 _ (gopanic_not_nil v));
  unfold mbind, bind, c_Request, debug_PrintStack, Capture, c_Error,
    ioutil_ReadAll, modify, gets;
  cbn -[raven.NewHttp raven.NewStacktrace fmt.Sprint runtime.gopanic].

(** Case analysis on the extractor and on the body stream at fault time. *)
Ltac split_capture w :=
  destruct (tagsFunc w) as [?f|] eqn:?Hfn;
  cbn -[raven.NewHttp raven.NewStacktrace fmt.Sprint runtime.gopanic];
  (destruct (http.Body (echo.Request (c w))) as [[|?b ?bs]|] eqn:?Hbody);
  cbn -[raven.NewHttp raven.NewStacktrace fmt.Sprint runtime.gopanic].

(** ** Runs on the sample data *)

(** The report of a panic with ["boom"] on a request without body. *)
Example boom_report :
  collector (exec (Middleware (panics (Str "boom") [])) ready_world)
  = [ {| raven.Receiver := Some (raven.mkClient sample_dsn);
         raven.Sent :=
           raven.NewPacket "boom"
             [raven.IException
                {| raven.Cause := errors.New "boom";
                   raven.ExStacktrace :=
                     Some (raven.mkStacktrace
                       [raven.mkStacktraceFrame "capture.go"
                          "echosentry.Middleware.func1.1" 100 []]) |};
              raven.IHttp
                {| raven.URL := "http://example.org/ping";
                   raven.HttpMethod := "GET";
                   raven.Headers := {[ "Host" := "example.org" ]} |}];
         raven.SentTags := None |} ].
Proof. reflexivity. Qed.

(** A body still unread at fault time goes into the extra section. *)
Example unread_body_report :
  raven.PacketExtra ∘ raven.Sent
    <$> collector (exec (Middleware (panics (Str "boom") [])) POST_world)
  = [Some {[ "requestBody" := Str (string_of_list_byte body_x1) ]}].
Proof. reflexivity. Qed.

(** A body the handler has read before the fault is exhausted: the
    interceptor reads nothing and the report has no extra section. *)
Example drained_body_report :
  raven.PacketExtra ∘ raven.Sent
    <$> collector (exec (Middleware (reads_body_then_panics (Str "boom")))
                     POST_world)
  = [None].
Proof. reflexivity. Qed.

(** [panic(nil)] is reported as the run-time error it raises. *)
Example nil_panic_report :
  raven.Message ∘ raven.Sent
    <$> collector (exec (Middleware (panics Nil [])) GET_world)
  = ["panic called with nil argument (obsolete)"].
Proof. reflexivity. Qed.

(** What the wrapper does once the handler has panicked: the deferred
    closure runs on the handler's final world and the wrapper returns nil. *)
Lemma Middleware_panicked (h : HandlerFunc) (w w1 : World) (v : iface)
    (trace : list runtime.Frame) :
  h w = (Panicked v trace, w1) ->
  Middleware h w
  = (Returned None, exec (recovery (runtime.gopanic v) trace) w1).
Proof.
  intros H. unfold Middleware, mbind, bind, exec. rewrite H. cbn [recover trace_of].
  by destruct (recovery (runtime.gopanic v) trace w1) as [[] w2].
Qed.

(** What the wrapper does once the handler has returned. *)
Lemma Middleware_returned (h : HandlerFunc) (w w1 : World)
    (err : option error) :
  h w = (Returned err, w1) -> Middleware h w = (Returned err, w1).
Proof.
  intros H. unfold Middleware, mbind, bind. rewrite H. cbn [recover trace_of].
  by rewrite recovery_nil.
Qed.

(** ** The interceptor *)

(** C1.  Whenever the handler panics, the wrapper absorbs the panic: the
    wrapped call returns to its caller (it does not panic), exactly one
    report has been handed to the collector since the fault, and the
    normalized error has been registered on the request's context. *)
Theorem panic_is_intercepted (h : HandlerFunc) (w w1 : World) (v : iface)
    (trace : list runtime.Frame) :
  h w = (Panicked v trace, w1) ->
  exists (res : option error) (w2 : World) (r : raven.Report),
    Middleware h w = (Returned res, w2)
    /\ collector w2 = collector w1 ++ [r]
    /\ echo.Errors (c w2)
       = echo.Errors (c w1) ++ [errors.New (fmt.Sprint (runtime.gopanic v))].
Proof.
  intros H. rewrite (Middleware_panicked _ _ _ _ _ H).
  run_recovery v. split_capture w1;
    (eexists; eexists; eexists; split; [reflexivity | split; reflexivity]).
Qed.

Lemma panic_is_intercepted_witness :
  exists (res : option error) (w2 : World) (r : raven.Report),
    Middleware (panics (Str "boom") []) GET_world = (Returned res, w2)
    /\ collector w2 = collector GET_world ++ [r]
    /\ echo.Errors (c w2)
       = echo.Errors (c GET_world)
         ++ [errors.New (fmt.Sprint (runtime.gopanic (Str "boom")))].
Proof.
  apply (panic_is_intercepted (panics (Str "boom") []) GET_world GET_world
           (Str "boom") []).
  reflexivity.
Defined.

(** C2.  Whenever the handler returns, with a nil or a non-nil error, the
    wrapper is a pass-through: it returns the handler's result in the
    handler's final world, so that no report has been handed to the
    collector, nothing has been registered on the context and the shared
    configuration is as the handler left it. *)
Theorem normal_return_is_passthrough (h : HandlerFunc) (w w1 : World)
    (err : option error) :
  h w = (Returned err, w1) ->
  Middleware h w = (Returned err, w1)
  /\ collector (exec (Middleware h) w) = collector w1
  /\ sentry (exec (Middleware h) w) = sentry w1
  /\ tagsFunc (exec (Middleware h) w) = tagsFunc w1
  /\ c (exec (Middleware h) w) = c w1.
Proof.
  intros H. unfold exec. rewrite (Middleware_returned _ _ _ _ H). cbn [snd].
  repeat split.
Qed.

Lemma normal_return_is_passthrough_witness :
  let h := returns (Some (errors.New "not found")) in
  Middleware h POST_world = (Returned (Some (errors.New "not found")), POST_world)
  /\ collector (exec (Middleware h) POST_world) = collector POST_world
  /\ sentry (exec (Middleware h) POST_world) = sentry POST_world
  /\ tagsFunc (exec (Middleware h) POST_world) = tagsFunc POST_world
  /\ c (exec (Middleware h) POST_world) = c POST_world.
Proof.
  apply (normal_return_is_passthrough
           (returns (Some (errors.New "not found"))) POST_world POST_world
           (Some (errors.New "not found"))).
  reflexivity.
Defined.

(** C3.  The report of a captured fault has one of two shapes.  When the
    bytes read from the request body at fault time are not empty, its extra
    section is the single field ["requestBody"] holding those bytes as text;
    when nothing is read (the stream is exhausted, empty or nil), it has no
    extra section. *)
Theorem extra_field_shapes (h : HandlerFunc) (w w1 : World) (v : iface)
    (trace : list runtime.Frame) :
  h w = (Panicked v trace, w1) ->
  exists r : raven.Report,
    collector (exec (Middleware h) w) = collector w1 ++ [r]
    /\ (pendingBody w1 <> [] ->
        raven.PacketExtra (raven.Sent r)
        = Some {[ "requestBody" := Str (string_of_list_byte (pendingBody w1)) ]})
    /\ (pendingBody w1 = [] -> raven.PacketExtra (raven.Sent r) = None).
Proof.
  intros H. unfold exec at 1. rewrite (Middleware_panicked _ _ _ _ _ H).
  cbn [snd]. unfold pendingBody. run_recovery v.
  split_capture w1; (eexists; split; [reflexivity|]); cbn; by split.
Qed.

Lemma extra_field_shapes_witness :
  (exists r : raven.Report,
     collector (exec (Middleware (panics (Str "boom") [])) POST_world)
     = collector POST_world ++ [r]
     /\ (pendingBody POST_world <> [] ->
         raven.PacketExtra (raven.Sent r)
         = Some {[ "requestBody" :=
                     Str (string_of_list_byte (pendingBody POST_world)) ]})
     /\ (pendingBody POST_world = [] ->
         raven.PacketExtra (raven.Sent r) = None))
  /\ pendingBody POST_world = body_x1.
Proof.
  split; [|reflexivity].
  apply (extra_field_shapes (panics (Str "boom") []) POST_world POST_world
           (Str "boom") []).
  reflexivity.
Defined.

(** C4.  With one request in flight and a tag extractor registered at fault
    time, the capture applies the extractor to the context of the failing
    request, stores its result in the [Tags] field of the shared
    configuration and hands the report to the collector with these tags. *)
Theorem extractor_tags_dispatched (h : HandlerFunc) (w w1 : World)
    (v : iface) (trace : list runtime.Frame) (fn : TagsFunc) :
  h w = (Panicked v trace, w1) ->
  tagsFunc w1 = Some fn ->
  Tags (sentry (exec (Middleware h) w)) = fn (c w1)
  /\ exists r : raven.Report,
       collector (exec (Middleware h) w) = collector w1 ++ [r]
       /\ raven.SentTags r = fn (c w1).
Proof.
  intros H Hfn. unfold exec at 1 2. rewrite (Middleware_panicked _ _ _ _ _ H).
  cbn [snd]. run_recovery v. rewrite Hfn.
  cbn -[raven.NewHttp raven.NewStacktrace fmt.Sprint runtime.gopanic].
  destruct (http.Body (echo.Request (c w1))) as [body|];
    cbn -[raven.NewHttp raven.NewStacktrace fmt.Sprint runtime.gopanic];
    (split; [reflexivity | eexists; split; reflexivity]).
Qed.

Lemma extractor_tags_dispatched_witness :
  let w := exec (SetTags (Some env_prod)) GET_world in
  Tags (sentry (exec (Middleware (panics (Str "boom") [])) w))
  = Some {[ "env" := "prod" ]}
  /\ exists r : raven.Report,
       collector (exec (Middleware (panics (Str "boom") [])) w)
       = collector w ++ [r]
       /\ raven.SentTags r = Some {[ "env" := "prod" ]}.
Proof.
  apply (extractor_tags_dispatched (panics (Str "boom") [])
           (exec (SetTags (Some env_prod)) GET_world)
           (exec (SetTags (Some env_prod)) GET_world)
           (Str "boom") [] env_prod); reflexivity.
Defined.

(** C5.  The HTTP context of the report of a captured fault follows the
    toggle as it stands at fault time: the empty placeholder when it is
    false, whatever the request holds; the record built from the live
    request when it is true. *)
Theorem http_context_follows_toggle (h : HandlerFunc) (w w1 : World)
    (v : iface) (trace : list runtime.Frame) :
  h w = (Panicked v trace, w1) ->
  exists r : raven.Report,
    collector (exec (Middleware h) w) = collector w1 ++ [r]
    /\ (withContext (sentry w1) = false ->
        httpOf (raven.Sent r) = [raven.zeroHttp])
    /\ (withContext (sentry w1) = true ->
        httpOf (raven.Sent r) = [raven.NewHttp (echo.Request (c w1))]).
Proof.
  intros H. unfold exec at 1. rewrite (Middleware_panicked _ _ _ _ _ H).
  cbn [snd]. run_recovery v.
  split_capture w1; (eexists; split; [reflexivity|]);
    cbn -[raven.NewHttp]; split; intros ->; reflexivity.
Qed.

Lemma http_context_follows_toggle_witness :
  let w := exec (WithContext false) POST_world in
  exists r : raven.Report,
    collector (exec (Middleware (panics (Str "boom") [])) w)
    = collector w ++ [r]
    /\ (withContext (sentry w) = false ->
        httpOf (raven.Sent r) = [raven.zeroHttp])
    /\ (withContext (sentry w) = true ->
        httpOf (raven.Sent r) = [raven.NewHttp (echo.Request (c w))]).
Proof.
  apply (http_context_follows_toggle (panics (Str "boom") [])
           (exec (WithContext false) POST_world)
           (exec (WithContext false) POST_world) (Str "boom") []).
  reflexivity.
Defined.

(** C10.  Whenever the handler panics, the wrapper itself returns nil, not
    the normalized error; that error reaches the caller's error handling as
    the one error [c.Error] adds to the context. *)
Theorem wrapper_returns_nil_on_panic (h : HandlerFunc) (w w1 : World)
    (v : iface) (trace : list runtime.Frame) :
  h w = (Panicked v trace, w1) ->
  fst (Middleware h w) = Returned None
  /\ fst (Middleware h w)
     <> Returned (Some (errors.New (fmt.Sprint (runtime.gopanic v))))
  /\ echo.Errors (c (exec (Middleware h) w))
     = echo.Errors (c w1) ++ [errors.New (fmt.Sprint (runtime.gopanic v))].
Proof.
  intros H. unfold exec. rewrite (Middleware_panicked _ _ _ _ _ H).
  cbn [fst snd]. split; [reflexivity|]. split; [discriminate|].
  run_recovery v. split_capture w1; reflexivity.
Qed.

Lemma wrapper_returns_nil_on_panic_witness :
  let h := panics (Err (errors.New "index out of range")) [] in
  fst (Middleware h GET_world) = Returned None
  /\ fst (Middleware h GET_world)
     <> Returned (Some (errors.New "index out of range"))
  /\ echo.Errors (c (exec (Middleware h) GET_world))
     = [errors.New "index out of range"].
Proof.
  apply (wrapper_returns_nil_on_panic
           (panics (Err (errors.New "index out of range")) [])
           GET_world GET_world (Err (errors.New "index out of range")) []).
  reflexivity.
Defined.

(** The message of the report is the panic value as [fmt.Sprint] prints it,
    and the error registered on the context carries the same message. *)
Lemma report_message (h : HandlerFunc) (w w1 : World) (v : iface)
    (trace : list runtime.Frame) :
  h w = (Panicked v trace, w1) ->
  exists (r : raven.Report) (err : error),
    collector (exec (Middleware h) w) = collector w1 ++ [r]
    /\ raven.Message (raven.Sent r) = fmt.Sprint (runtime.gopanic v)
    /\ echo.Errors (c (exec (Middleware h) w)) = echo.Errors (c w1) ++ [err]
    /\ Error err = raven.Message (raven.Sent r).
Proof.
  intros H. unfold exec at 1 2. rewrite (Middleware_panicked _ _ _ _ _ H).
  cbn [snd]. run_recovery v.
  split_capture w1; (eexists; eexists; repeat split; reflexivity).
Qed.

(** The scenario of a fresh setup: [init], then [SetDSN] with an address the
    collector library accepts, the toggle left at its default and no
    extractor set; the handler panics with ["boom"], having left the setup
    alone and nothing to read on the request body. *)
Lemma boom_scenario
    (New : string -> option raven.Client * option error) (dsn : string)
    (ctx : echo.Context) (stack : list runtime.Frame) (w : World)
    (h : HandlerFunc) (trace : list runtime.Frame) (w1 : World) :
  SetDSN New dsn (start ctx stack) = Running w ->
  h w = (Panicked (Str "boom") trace, w1) ->
  sentry w1 = sentry w ->
  tagsFunc w1 = tagsFunc w ->
  collector w1 = collector w ->
  pendingBody w1 = [] ->
  exists (r : raven.Report) (st : raven.Stacktrace),
    collector (exec (Middleware h) w) = [r]
    /\ raven.Receiver r = fst (New dsn)
    /\ raven.Message (raven.Sent r) = "boom"
    /\ exceptionOf (raven.Sent r)
       = [raven.NewException (errors.New "boom") (Some st)]
    /\ raven.Frames st
       = reverse (raven.NewStacktraceFrame 3
                    <$> (trace ++ wrapperFrame :: callers w1))
    /\ raven.Frames st <> []
    /\ httpOf (raven.Sent r) = [raven.NewHttp (echo.Request (c w1))]
    /\ raven.NewHttp (echo.Request (c w1)) <> raven.zeroHttp
    /\ raven.SentTags r = None
    /\ raven.PacketExtra (raven.Sent r) = None.
Proof.
  intros Hset H Hs Hfn Hcol Hbody.
  unfold SetDSN in Hset. destruct (New dsn) as [client [e|]]; [done|].
  injection Hset as <-. cbn in Hs, Hfn, Hcol.
  assert (Hst : raven.NewStacktrace 2 3 []
                  (stackAt 65 trace
                     (set_stderr (stderr w1 ++ [stackAt 60 trace w1]) w1))
                = Some (raven.mkStacktrace
                          (reverse (raven.NewStacktraceFrame 3
                             <$> (trace ++ wrapperFrame :: callers w1))))).
  { rewrite NewStacktrace_frames; [done|]. cbn. by destruct trace. }
  unfold exec at 1. rewrite (Middleware_panicked _ _ _ _ _ H). cbn [snd].
  unfold pendingBody in Hbody. run_recovery (Str "boom").
  rewrite Hfn.
  cbn -[raven.NewHttp raven.NewStacktrace fmt.Sprint runtime.gopanic].
  destruct (http.Body (echo.Request (c w1))) as [body|];
    [subst body|];
    cbn -[raven.NewHttp raven.NewStacktrace];
    rewrite Hs, Hcol, Hst; cbn -[raven.NewHttp];
    (eexists; eexists; repeat split; [|apply NewHttp_not_zero]);
    intros Hnil; cbn [raven.Frames] in Hnil;
    apply (f_equal length) in Hnil;
    rewrite length_reverse, length_fmap, length_app in Hnil;
    cbn in Hnil; lia.
Qed.

(** C6.  The message of the report of a captured fault is the panic value
    as [fmt.Sprint] prints it, and the error registered on the context
    carries the same message.  In particular, after a fresh setup with an
    accepted address, the toggle at its default and no extractor, a handler
    that panics with ["boom"] (nothing being left to read on the body) gives
    one report, with message ["boom"], a stack trace that is not empty and
    holds the frames of the goroutine from the fault down (the two frames
    above it, the deferred closure and the runtime's panic dispatcher, are
    skipped), an HTTP context built from the request and different from the
    empty placeholder, no tags and no extra section. *)
Theorem report_message_and_boom_scenario :
  (forall (h : HandlerFunc) (w w1 : World) (v : iface)
          (trace : list runtime.Frame),
     h w = (Panicked v trace, w1) ->
     exists (r : raven.Report) (err : error),
       collector (exec (Middleware h) w) = collector w1 ++ [r]
       /\ raven.Message (raven.Sent r) = fmt.Sprint (runtime.gopanic v)
       /\ echo.Errors (c (exec (Middleware h) w))
          = echo.Errors (c w1) ++ [err]
       /\ Error err = raven.Message (raven.Sent r))
  /\ (forall (New : string -> option raven.Client * option error)
             (dsn : string) (ctx : echo.Context)
             (stack : list runtime.Frame) (w : World) (h : HandlerFunc)
             (trace : list runtime.Frame) (w1 : World),
        SetDSN New dsn (start ctx stack) = Running w ->
        h w = (Panicked (Str "boom") trace, w1) ->
        sentry w1 = sentry w ->
        tagsFunc w1 = tagsFunc w ->
        collector w1 = collector w ->
        pendingBody w1 = [] ->
        exists (r : raven.Report) (st : raven.Stacktrace),
          collector (exec (Middleware h) w) = [r]
          /\ raven.Receiver r = fst (New dsn)
          /\ raven.Message (raven.Sent r) = "boom"
          /\ exceptionOf (raven.Sent r)
             = [raven.NewException (errors.New "boom") (Some st)]
          /\ raven.Frames st
             = reverse (raven.NewStacktraceFrame 3
                          <$> drop 2 (stackAt 65 trace w1))
          /\ raven.Frames st <> []
          /\ httpOf (raven.Sent r) = [raven.NewHttp (echo.Request (c w1))]
          /\ raven.NewHttp (echo.Request (c w1)) <> raven.zeroHttp
          /\ raven.SentTags r = None
          /\ raven.PacketExtra (raven.Sent r) = None).
Proof.
  split.
  - intros h w w1 v trace H. exact (report_message h w w1 v trace H).
  - intros New dsn ctx stack w h trace w1 Hset H Hs Hfn Hcol Hbody.
    cbn [stackAt drop].
    by apply (boom_scenario New dsn ctx stack w h trace w1).
Qed.

Lemma report_message_and_boom_scenario_witness :
  exists (r : raven.Report) (st : raven.Stacktrace),
    collector (exec (Middleware (panics (Str "boom") [])) ready_world) = [r]
    /\ raven.Receiver r = fst (sample_New sample_dsn)
    /\ raven.Message (raven.Sent r) = "boom"
    /\ exceptionOf (raven.Sent r)
       = [raven.NewException (errors.New "boom") (Some st)]
    /\ raven.Frames st
       = reverse (raven.NewStacktraceFrame 3
                    <$> drop 2 (stackAt 65 [] ready_world))
    /\ raven.Frames st <> []
    /\ httpOf (raven.Sent r)
       = [raven.NewHttp (echo.Request (c ready_world))]
    /\ raven.NewHttp (echo.Request (c ready_world)) <> raven.zeroHttp
    /\ raven.SentTags r = None
    /\ raven.PacketExtra (raven.Sent r) = None.
Proof.
  apply (proj2 report_message_and_boom_scenario sample_New sample_dsn
           (echo.mkContext GET_request []) [] ready_world
           (panics (Str "boom") []) [] ready_world); reflexivity.
Defined.

(** C7.  [SetDSN] terminates the process (exit status 1, the error logged)
    when the collector library rejects the address, and only then; it then
    stores nothing.  When the library accepts the address, [SetDSN] returns
    with the handle the library built stored in the shared configuration,
    the rest of the world being unchanged. *)
Theorem SetDSN_fatal_or_stored
    (New : string -> option raven.Client * option error) (dsn : string)
    (w : World) :
  (forall e : error,
     snd (New dsn) = Some e -> SetDSN New dsn w = Exited 1 (Error e))
  /\ (forall w' : World,
        SetDSN New dsn w = Running w' -> snd (New dsn) = None)
  /\ (snd (New dsn) = None ->
      exists w' : World,
        SetDSN New dsn w = Running w'
        /\ RavenClient (sentry w') = fst (New dsn)
        /\ withContext (sentry w') = withContext (sentry w)
        /\ Tags (sentry w') = Tags (sentry w)
        /\ tagsFunc w' = tagsFunc w
        /\ c w' = c w
        /\ collector w' = collector w).
Proof.
  unfold SetDSN. destruct (New dsn) as [client [e|]]; cbn [fst snd].
  - split; [|split].
    + by intros e' [= <-].
    + intros w' Hrun. discriminate Hrun.
    + intros Hnone. discriminate Hnone.
  - split; [|split].
    + intros e He. discriminate He.
    + reflexivity.
    + intros _. eexists. split; [reflexivity|]. by repeat split.
Qed.

Lemma SetDSN_fatal_or_stored_witness :
  SetDSN sample_New "sentry.example.org" GET_world
  = Exited 1 "raven: dsn missing public key and/or password"
  /\ exists w' : World,
       SetDSN sample_New sample_dsn GET_world = Running w'
       /\ RavenClient (sentry w') = Some (raven.mkClient sample_dsn)
       /\ withContext (sentry w') = withContext (sentry GET_world)
       /\ Tags (sentry w') = Tags (sentry GET_world)
       /\ tagsFunc w' = tagsFunc GET_world
       /\ c w' = c GET_world
       /\ collector w' = collector GET_world.
Proof.
  split.
  - apply (proj1 (SetDSN_fatal_or_stored sample_New "sentry.example.org"
                    GET_world)
             (errors.New "raven: dsn missing public key and/or password")).
    reflexivity.
  - apply (proj2 (proj2 (SetDSN_fatal_or_stored sample_New sample_dsn
                           GET_world))).
    reflexivity.
Defined.

(** ** Requests served in sequence *)

Lemma serve_cons (ctx : echo.Context) (h : HandlerFunc)
    (reqs : list (echo.Context * HandlerFunc)) (w : World) :
  exec (serve ((ctx, h) :: reqs)) w
  = exec (serve reqs) (exec (Middleware h) (set_c ctx w)).
Proof.
  unfold exec. cbn [serve]. unfold mbind, bind, modify.
  by destruct (Middleware h (set_c ctx w)) as [out w'].
Qed.

Lemma recovery_follows_toggle (v : iface) (trace : list runtime.Frame)
    (w1 : World) :
  exists r : raven.Report,
    collector (exec (recovery (runtime.gopanic v) trace) w1)
    = collector w1 ++ [r]
    /\ follows_toggle (withContext (sentry w1)) r
    /\ withContext (sentry (exec (recovery (runtime.gopanic v) trace) w1))
       = withContext (sentry w1).
Proof.
  run_recovery v.
  split_capture w1; (eexists; split; [reflexivity|]); (split; [|reflexivity]);
    unfold follows_toggle; destruct (withContext (sentry w1));
    cbn -[raven.NewHttp]; eauto.
Qed.

Lemma Middleware_follows_toggle (h : HandlerFunc) (w : World) :
  bystander h ->
  exists rs : list raven.Report,
    collector (exec (Middleware h) w) = collector w ++ rs
    /\ Forall (follows_toggle (withContext (sentry w))) rs
    /\ withContext (sentry (exec (Middleware h) w)) = withContext (sentry w).
Proof.
  intros Hby. destruct (Hby w) as [Hs Hcol]. unfold exec in *.
  destruct (h w) as [[err | v trace] w1] eqn:H; cbn [snd] in Hs, Hcol.
  - rewrite (Middleware_returned _ _ _ _ H). cbn [snd].
    exists []. rewrite app_nil_r, Hs. by repeat split.
  - rewrite (Middleware_panicked _ _ _ _ _ H). cbn [snd].
    destruct (recovery_follows_toggle v trace w1) as (r & Hr & Hft & Hwc).
    exists [r]. rewrite Hr, Hwc, Hcol, Hs. repeat split.
    apply Forall_singleton. by rewrite <- Hs.
Qed.

Lemma serve_follows_toggle (reqs : list (echo.Context * HandlerFunc)) :
  Forall (fun rq => bystander rq.2) reqs ->
  forall w : World,
    exists rs : list raven.Report,
      collector (exec (serve reqs) w) = collector w ++ rs
      /\ Forall (follows_toggle (withContext (sentry w))) rs.
Proof.
  induction 1 as [|[ctx h] reqs Hby _ IH]; intros w.
  - exists []. by rewrite app_nil_r.
  - rewrite serve_cons.
    destruct (Middleware_follows_toggle h (set_c ctx w) Hby)
      as (rs1 & Hcol1 & Hft1 & Hwc1).
    destruct (IH (exec (Middleware h) (set_c ctx w))) as (rs2 & Hcol2 & Hft2).
    exists (rs1 ++ rs2). rewrite Hcol2, Hcol1, Hwc1 in *.
    split; [by rewrite <- app_assoc|]. by apply Forall_app.
Qed.

(** C8.  The toggle is true once [init] has run; [WithContext] overwrites it
    with its argument whatever it held, leaving the rest of the world as it
    was; and the new value holds for every later capture: every report
    handed to the collector while any sequence of requests is served
    afterwards (by handlers that do not touch the configuration) carries the
    HTTP context this value asks for. *)
Theorem context_toggle_default_and_overwrite :
  (forall (ctx : echo.Context) (stack : list runtime.Frame),
     withContext (sentry (start ctx stack)) = true)
  /\ (forall (yepnope : bool) (w : World),
        exec (WithContext yepnope) w
        = set_sentry {| withContext := yepnope;
                        RavenClient := RavenClient (sentry w);
                        Tags := Tags (sentry w) |} w)
  /\ (forall (yepnope : bool) (w : World)
             (reqs : list (echo.Context * HandlerFunc)),
        Forall (fun rq => bystander rq.2) reqs ->
        exists rs : list raven.Report,
          collector (exec (serve reqs) (exec (WithContext yepnope) w))
          = collector w ++ rs
          /\ Forall (follows_toggle yepnope) rs).
Proof.
  split; [reflexivity|]. split; [reflexivity|].
  intros yepnope w reqs Hby.
  exact (serve_follows_toggle reqs Hby (exec (WithContext yepnope) w)).
Qed.

Lemma panics_bystander (v : iface) (trace : list runtime.Frame) :
  bystander (panics v trace).
Proof. intros w. by split. Qed.

Lemma returns_bystander (err : option error) : bystander (returns err).
Proof. intros w. by split. Qed.

Lemma context_toggle_default_and_overwrite_witness :
  let reqs :=
    [(echo.mkContext POST_request [], panics (Str "boom") []);
     (echo.mkContext GET_request [], returns None);
     (echo.mkContext GET_request [], panics (Int 7) [])] in
  exists rs : list raven.Report,
    collector (exec (serve reqs) (exec (WithContext false) POST_world))
    = collector POST_world ++ rs
    /\ Forall (follows_toggle false) rs.
Proof.
  apply (proj2 (proj2 context_toggle_default_and_overwrite) false POST_world).
  repeat constructor;
    first [apply panics_bystander | apply returns_bystander].
Defined.

(** The tags a capture sends are those it leaves in the shared
    configuration: the extractor's result when one is registered, the value
    found there otherwise. *)
Lemma recovery_tags (v : iface) (trace : list runtime.Frame) (w1 : World) :
  exists r : raven.Report,
    collector (exec (recovery (runtime.gopanic v) trace) w1)
    = collector w1 ++ [r]
    /\ raven.SentTags r
       = Tags (sentry (exec (recovery (runtime.gopanic v) trace) w1))
    /\ Tags (sentry (exec (recovery (runtime.gopanic v) trace) w1))
       = match tagsFunc w1 with
         | Some fn => fn (c w1)
         | None => Tags (sentry w1)
         end.
Proof.
  run_recovery v.
  split_capture w1; (eexists; split; [reflexivity|]); by split.
Qed.

(** C9.  A capture made while no extractor is registered leaves the [Tags]
    field as it found it and sends its report with the value found there:
    nil in a process that has just started, and the tags of an earlier
    capture, made while an extractor was registered, when there was one. *)
Theorem tags_persist_without_extractor :
  (forall (h : HandlerFunc) (w w1 : World) (v : iface)
          (trace : list runtime.Frame),
     h w = (Panicked v trace, w1) ->
     tagsFunc w1 = None ->
     Tags (sentry (exec (Middleware h) w)) = Tags (sentry w1)
     /\ exists r : raven.Report,
          collector (exec (Middleware h) w) = collector w1 ++ [r]
          /\ raven.SentTags r = Tags (sentry w1))
  /\ (forall (ctx : echo.Context) (stack : list runtime.Frame),
        Tags (sentry (start ctx stack)) = None
        /\ tagsFunc (start ctx stack) = None)
  /\ (forall (h1 h2 : HandlerFunc) (w w1 : World) (v1 : iface)
             (trace1 : list runtime.Frame) (fn : TagsFunc)
             (ctx2 : echo.Context) (v2 : iface)
             (trace2 : list runtime.Frame) (w4 : World),
        h1 w = (Panicked v1 trace1, w1) ->
        tagsFunc w1 = Some fn ->
        let w3 := set_c ctx2 (exec (SetTags None) (exec (Middleware h1) w)) in
        h2 w3 = (Panicked v2 trace2, w4) ->
        sentry w4 = sentry w3 ->
        tagsFunc w4 = tagsFunc w3 ->
        exists r : raven.Report,
          collector (exec (Middleware h2) w3) = collector w4 ++ [r]
          /\ raven.SentTags r = fn (c w1)).
Proof.
  split; [|split].
  - intros h w w1 v trace H Hfn. unfold exec at 1 2.
    rewrite (Middleware_panicked _ _ _ _ _ H). cbn [snd].
    destruct (recovery_tags v trace w1) as (r & Hcol & Hsent & Htags).
    rewrite Hfn in Htags. split; [done|].
    exists r. split; [done|]. by rewrite Hsent.
  - by intros ctx stack.
  - intros h1 h2 w w1 v1 trace1 fn ctx2 v2 trace2 w4 H1 Hfn w3 H2 Hs4 Hfn4.
    unfold exec at 1. rewrite (Middleware_panicked _ _ _ _ _ H2). cbn [snd].
    destruct (recovery_tags v2 trace2 w4) as (r & Hcol & Hsent & Htags).
    exists r. split; [done|]. rewrite Hsent, Htags, Hfn4, Hs4.
    subst w3. cbn. unfold exec at 1.
    rewrite (Middleware_panicked _ _ _ _ _ H1). cbn [snd].
    destruct (recovery_tags v1 trace1 w1) as (r1 & _ & _ & Htags1).
    by rewrite Htags1, Hfn.
Qed.

Lemma tags_persist_without_extractor_witness :
  let w := exec (SetTags (Some env_prod)) POST_world in
  let w3 :=
    set_c (echo.mkContext GET_request [])
      (exec (SetTags None)
         (exec (Middleware (panics (Str "first") [])) w)) in
  exists r : raven.Report,
    collector (exec (Middleware (panics (Str "second") [])) w3)
    = collector w3 ++ [r]
    /\ raven.SentTags r = Some {[ "env" := "prod" ]}.
Proof.
  apply (proj2 (proj2 tags_persist_without_extractor)
           (panics (Str "first") []) (panics (Str "second") [])
           (exec (SetTags (Some env_prod)) POST_world)
           (exec (SetTags (Some env_prod)) POST_world)
           (Str "first") [] env_prod (echo.mkContext GET_request [])
           (Str "second") []
           (set_c (echo.mkContext GET_request [])
              (exec (SetTags None)
                 (exec (Middleware (panics (Str "first") []))
                    (exec (SetTags (Some env_prod)) POST_world)))));
    reflexivity.
Defined.

(** ** Further properties of capture.go *)


(** X2.  A capture consumes the request body: afterwards a body stream that
    was there is exhausted (a nil one stays nil), so nothing is left to read
    for whoever handles the request next; the other parts of the request are
    untouched. *)
Theorem capture_drains_body (h : HandlerFunc) (w w1 : World) (v : iface)
    (trace : list runtime.Frame) :
  h w = (Panicked v trace, w1) ->
  let req := echo.Request (c w1) in
  let req' := echo.Request (c (exec (Middleware h) w)) in
  http.Body req' = (fun _ => []) <$> http.Body req
  /\ pendingBody (exec (Middleware h) w) = []
  /\ http.Method req' = http.Method req
  /\ http.Host req' = http.Host req
  /\ http.Path req' = http.Path req
  /\ http.TLS req' = http.TLS req
  /\ http.Header req' = http.Header req.
Proof.
  intros H req req'. subst req req'. unfold exec at 1 2 3 4 5 6 7.
  rewrite (Middleware_panicked _ _ _ _ _ H). cbn [snd].
  unfold pendingBody. run_recovery v.
  split_capture w1; rewrite ?Hbody; by repeat split.
Qed.

Lemma capture_drains_body_witness :
  let w' := exec (Middleware (panics (Str "boom") [])) POST_world in
  http.Body (echo.Request (c w')) = Some []
  /\ pendingBody w' = []
  /\ http.Method (echo.Request (c w')) = "POST"
  /\ http.Host (echo.Request (c w')) = "example.org"
  /\ http.Path (echo.Request (c w')) = "/items"
  /\ http.TLS (echo.Request (c w')) = true
  /\ http.Header (echo.Request (c w')) = ∅.
Proof.
  apply (capture_drains_body (panics (Str "boom") []) POST_world POST_world
           (Str "boom") []).
  reflexivity.
Defined.

(** X3.  A capture reads the configuration without changing it, the [Tags]
    field apart: the toggle, the collector handle and the registered
    extractor are after the capture what they were at the fault, the call
    stack below the wrapper is the same, and exactly one stack has been
    printed on standard error. *)
Theorem capture_keeps_configuration (h : HandlerFunc) (w w1 : World)
    (v : iface) (trace : list runtime.Frame) :
  h w = (Panicked v trace, w1) ->
  let w2 := exec (Middleware h) w in
  withContext (sentry w2) = withContext (sentry w1)
  /\ RavenClient (sentry w2) = RavenClient (sentry w1)
  /\ tagsFunc w2 = tagsFunc w1
  /\ callers w2 = callers w1
  /\ stderr w2 = stderr w1 ++ [stackAt 60 trace w1].
Proof.
  intros H w2. subst w2. unfold exec.
  rewrite (Middleware_panicked _ _ _ _ _ H). cbn [snd].
  run_recovery v. split_capture w1; by repeat split.
Qed.

Lemma capture_keeps_configuration_witness :
  let w := exec (SetTags (Some env_prod)) ready_world in
  let w2 := exec (Middleware (panics (Str "boom") [])) w in
  withContext (sentry w2) = withContext (sentry w)
  /\ RavenClient (sentry w2) = RavenClient (sentry w)
  /\ tagsFunc w2 = tagsFunc w
  /\ callers w2 = callers w
  /\ stderr w2 = stderr w ++ [stackAt 60 [] w].
Proof.
  apply (capture_keeps_configuration (panics (Str "boom") [])
           (exec (SetTags (Some env_prod)) ready_world)
           (exec (SetTags (Some env_prod)) ready_world) (Str "boom") []).
  reflexivity.
Defined.

(** The stack trace taken in the deferred closure is never nil: it holds the
    frames of the fault, of the wrapper and of its callers. *)
Lemma capture_stacktrace (line : Z) (trace : list runtime.Frame) (w : World) :
  raven.NewStacktrace 2 3 [] (stackAt line trace w)
  = Some (raven.mkStacktrace
            (reverse (raven.NewStacktraceFrame 3
                        <$> (trace ++ wrapperFrame :: callers w)))).
Proof.
  rewrite NewStacktrace_frames; [done|]. cbn. by destruct trace.
Qed.

(** X4.  Every report has the same build: it is handed to the collector
    handle found in the configuration at fault time and carries two
    interfaces, in this order: the exception, made from the very error that
    is registered on the context, with a stack trace that is never nil, and
    the HTTP context.  The trace leaves out the first two frames of the stack
    (skip 2), so it has one frame per frame of the fault, one for the wrapper
    and one per caller, each with at most three context lines. *)
Theorem report_structure (h : HandlerFunc) (w w1 : World) (v : iface)
    (trace : list runtime.Frame) :
  h w = (Panicked v trace, w1) ->
  exists (r : raven.Report) (st : raven.Stacktrace) (err : error),
    collector (exec (Middleware h) w) = collector w1 ++ [r]
    /\ echo.Errors (c (exec (Middleware h) w)) = echo.Errors (c w1) ++ [err]
    /\ raven.Receiver r = RavenClient (sentry w1)
    /\ raven.Interfaces (raven.Sent r)
       = [raven.IException (raven.NewException err (Some st));
          raven.IHttp (if withContext (sentry w1)
                       then raven.NewHttp (echo.Request (c w1))
                       else raven.zeroHttp)]
    /\ raven.Frames st
       = reverse (raven.NewStacktraceFrame 3 <$> drop 2 (stackAt 65 trace w1))
    /\ length (raven.Frames st)
       = (length trace + 1 + length (callers w1))%nat
    /\ Forall (fun fr => (length (raven.PostContext fr) <= 3)%nat)
              (raven.Frames st).
Proof.
  intros H. unfold exec. rewrite (Middleware_panicked _ _ _ _ _ H).
  cbn [snd].
  pose proof (capture_stacktrace 65 trace
                (set_stderr (stderr w1 ++ [stackAt 60 trace w1]) w1)) as Hst.
  cbn [callers set_stderr] in Hst.
  assert (Hlen : length (reverse (raven.NewStacktraceFrame 3
                   <$> (trace ++ wrapperFrame :: callers w1)))
                 = (length trace + 1 + length (callers w1))%nat).
  { rewrite length_reverse, length_fmap, length_app. cbn. lia. }
  assert (Hctx : Forall (fun fr => (length (raven.PostContext fr) <= 3)%nat)
                   (reverse (raven.NewStacktraceFrame 3
                      <$> (trace ++ wrapperFrame :: callers w1)))).
  { apply Forall_reverse, Forall_fmap, Forall_forall. intros fr _.
    cbn. rewrite length_take. lia. }
  run_recovery v.
  split_capture w1; rewrite Hst;
    (eexists; eexists; eexists; repeat split; [exact Hlen | exact Hctx]).
Qed.

Lemma report_structure_witness :
  let h := panics (Str "boom") [] in
  exists (r : raven.Report) (st : raven.Stacktrace) (err : error),
    collector (exec (Middleware h) ready_world)
    = collector ready_world ++ [r]
    /\ echo.Errors (c (exec (Middleware h) ready_world))
       = echo.Errors (c ready_world) ++ [err]
    /\ raven.Receiver r = RavenClient (sentry ready_world)
    /\ raven.Interfaces (raven.Sent r)
       = [raven.IException (raven.NewException err (Some st));
          raven.IHttp (if withContext (sentry ready_world)
                       then raven.NewHttp (echo.Request (c ready_world))
                       else raven.zeroHttp)]
    /\ raven.Frames st
       = reverse (raven.NewStacktraceFrame 3
                    <$> drop 2 (stackAt 65 [] ready_world))
    /\ length (raven.Frames st)
       = (length (@nil runtime.Frame) + 1 + length (callers ready_world))%nat
    /\ Forall (fun fr => (length (raven.PostContext fr) <= 3)%nat)
              (raven.Frames st).
Proof.
  apply (report_structure (panics (Str "boom") []) ready_world ready_world
           (Str "boom") []).
  reflexivity.
Defined.

(** What follows a call that may have terminated the process. *)
Definition andThen (r : Run) (m : St unit) : Run :=
  match r with
  | Running w => Running (exec m w)
  | Exited status logged => Exited status logged
  end.

(** X5.  The setup calls each write one variable and nothing else: a
    repeated call overwrites the earlier one (the last value wins, also for
    the collector handle), and calls on different variables can be made in
    any order; a rejected address terminates the process whatever was
    configured before. *)
Theorem setup_calls_compose
    (New : string -> option raven.Client * option error) (w : World) :
  (forall b1 b2 : bool,
     exec (WithContext b2) (exec (WithContext b1) w)
     = exec (WithContext b2) w)
  /\ (forall fn1 fn2 : option TagsFunc,
        exec (SetTags fn2) (exec (SetTags fn1) w) = exec (SetTags fn2) w)
  /\ (forall (b : bool) (fn : option TagsFunc),
        exec (WithContext b) (exec (SetTags fn) w)
        = exec (SetTags fn) (exec (WithContext b) w))
  /\ (forall (dsn : string) (b : bool),
        SetDSN New dsn (exec (WithContext b) w)
        = andThen (SetDSN New dsn w) (WithContext b))
  /\ (forall (dsn : string) (fn : option TagsFunc),
        SetDSN New dsn (exec (SetTags fn) w)
        = andThen (SetDSN New dsn w) (SetTags fn))
  /\ (forall (dsn1 dsn2 : string) (w' : World),
        SetDSN New dsn1 w = Running w' ->
        SetDSN New dsn2 w' = SetDSN New dsn2 w).
Proof.
  repeat split; try reflexivity.
  - intros dsn b. unfold SetDSN. by destruct (New dsn) as [client [e|]].
  - intros dsn fn. unfold SetDSN. by destruct (New dsn) as [client [e|]].
  - intros dsn1 dsn2 w'. unfold SetDSN.
    destruct (New dsn1) as [client1 [e1|]]; [done|]. intros [= <-].
    by destruct (New dsn2) as [client2 [e2|]].
Qed.

(** ** Reports of a sequence of requests *)

(** The panic values of the requests of [reqs] whose handler panics, as
    [recover()] yields them, in the order the requests are served. *)
Fixpoint faults (reqs : list (echo.Context * HandlerFunc)) (w : World)
  : list iface :=
  match reqs with
  | [] => []
  | (ctx, h) :: reqs' =>
      match fst (h (set_c ctx w)) with
      | Panicked v _ => [runtime.gopanic v]
      | Returned _ => []
      end ++ faults reqs' (exec (Middleware h) (set_c ctx w))
  end.

Lemma Middleware_messages (h : HandlerFunc) (w : World) :
  bystander h ->
  exists rs : list raven.Report,
    collector (exec (Middleware h) w) = collector w ++ rs
    /\ raven.Message ∘ raven.Sent <$> rs
       = fmt.Sprint <$> match fst (h w) with
                        | Panicked v _ => [runtime.gopanic v]
                        | Returned _ => []
                        end.
Proof.
  intros Hby. destruct (Hby w) as [_ Hcol]. unfold exec in *.
  destruct (h w) as [[err | v trace] w1] eqn:H; cbn [fst snd] in *.
  - rewrite (Middleware_returned _ _ _ _ H). cbn [snd].
    exists []. by rewrite app_nil_r.
  - rewrite (Middleware_panicked _ _ _ _ _ H). cbn [snd].
    rewrite <- Hcol. run_recovery v.
    split_capture w1; (eexists [_]; split; [reflexivity|]);
      cbn; by repeat case_bool_decide.
Qed.

(** X6.  While requests are served one after the other (by handlers that
    cannot reach the collector), one report is handed over per request whose
    handler panics and none for the others; the reports follow the order of
    the requests, each with the message of its own panic. *)
Theorem reports_follow_requests (reqs : list (echo.Context * HandlerFunc)) :
  Forall (fun rq => bystander rq.2) reqs ->
  forall w : World,
    exists rs : list raven.Report,
      collector (exec (serve reqs) w) = collector w ++ rs
      /\ raven.Message ∘ raven.Sent <$> rs = fmt.Sprint <$> faults reqs w
      /\ (length rs <= length reqs)%nat.
Proof.
  induction 1 as [|[ctx h] reqs Hby _ IH]; intros w.
  - exists []. by rewrite app_nil_r.
  - rewrite serve_cons. cbn [faults].
    destruct (Middleware_messages h (set_c ctx w) Hby) as (rs1 & Hcol1 & Hm1).
    destruct (IH (exec (Middleware h) (set_c ctx w)))
      as (rs2 & Hcol2 & Hm2 & Hlen2).
    exists (rs1 ++ rs2). rewrite Hcol2, Hcol1. cbn [set_c collector].
    split; [by rewrite <- app_assoc|].
    split; [by rewrite !fmap_app, Hm1, Hm2|].
    apply (f_equal length) in Hm1. rewrite !length_fmap in Hm1.
    rewrite length_app, Hm1. cbn [length].
    destruct (fst (h (set_c ctx w))); cbn [length]; lia.
Qed.

Lemma reports_follow_requests_witness :
  let reqs :=
    [(echo.mkContext POST_request [], panics (Str "boom") []);
     (echo.mkContext GET_request [], returns (Some (errors.New "not found")));
     (echo.mkContext GET_request [], panics (Int 7) [])] in
  exists rs : list raven.Report,
    collector (exec (serve reqs) ready_world) = collector ready_world ++ rs
    /\ raven.Message ∘ raven.Sent <$> rs = ["boom"; "7"]
    /\ (length rs <= 3)%nat.
Proof.
  apply (reports_follow_requests
           [(echo.mkContext POST_request [], panics (Str "boom") []);
            (echo.mkContext GET_request [],
             returns (Some (errors.New "not found")));
            (echo.mkContext GET_request [], panics (Int 7) [])]).
  repeat constructor;
    first [apply panics_bystander | apply returns_bystander].
Defined.
